(** * telegram-blocker-bot: the channel-membership handler of [bot.py]

    A shallow embedding of [src/bot.py]: the module-level configuration
    (lines 37-46), the handler [track_channel_member] (lines 57-115) and
    [main] (lines 134-162), followed by the properties the specification
    states about them.

    Effects are explicit.  A computation takes the state of the messaging
    backend and yields an outcome (a returned value or a raised exception),
    the backend state afterwards and the effects it emitted, in order:
    outbound ban commands and log records. *)

From Stdlib Require Import ZArith Bool List String Ascii Lia.
Import ListNotations.
Open Scope string_scope.
Open Scope Z_scope.

(** ** Data *)

(** Modelled from the spec: the values of a member's status (section 3 of the
    specification: Owner, Administrator, Member, Restricted, Left, Kicked and a
    pending/unknown remainder, which is [OTHER] with the raw status text the
    backend sent).  [KICKED] is the status the backend sends as "kicked". *)
Inductive ChatMemberStatus : Type :=
| OWNER
| ADMINISTRATOR
| MEMBER
| RESTRICTED
| LEFT
| KICKED
| OTHER (raw : string).

Definition ChatMemberStatus_eq_dec (a b : ChatMemberStatus) : {a = b} + {a <> b}.
Proof. decide equality. apply string_dec. Defined.

(** Python's [==] on statuses. *)
Definition status_eqb (a b : ChatMemberStatus) : bool :=
  if ChatMemberStatus_eq_dec a b then true else false.

(** Python's [x in [..]] on a list of statuses. *)
Definition status_in (x : ChatMemberStatus) (l : list ChatMemberStatus) : bool :=
  existsb (status_eqb x) l.

(** The attributes of the library objects that the handler reads.  A reference
    to another object may be [None]; the library declares [chat],
    [old_chat_member], [new_chat_member] and [user] as always present, so
    [None] there is the unexpected case, and reading an attribute through it
    raises [AttributeError] as in Python. *)
Record User : Type := mkUser {
  id : Z;
  is_bot : bool;
  full_name : string;
  username : option string
}.

Record Chat : Type := mkChat { chat_id : Z }.

Record ChatMember : Type := mkChatMember {
  user : option User;
  status : ChatMemberStatus
}.

Record ChatMemberUpdated : Type := mkChatMemberUpdated {
  chat : option Chat;
  old_chat_member : option ChatMember;
  new_chat_member : option ChatMember
}.

Record Update : Type := mkUpdate {
  my_chat_member : option ChatMemberUpdated;
  chat_member : option ChatMemberUpdated
}.

(** Instances of Python's [Exception]; this is the class both [except]
    clauses of the handler name. *)
Inductive Exception : Type :=
| AttributeError (msg : string)
| ValueError (msg : string)
| TelegramError (msg : string)
| RuntimeError (msg : string).

(** ** Observable effects *)

Inductive Level : Type := INFO | ERROR.

(** One constructor per [logger] call of [bot.py], carrying the values its
    format string interpolates. *)
Inductive Message : Type :=
| MsgBanned (name : string) (uid : Z) (uname : string)
            (old_status new_status : ChatMemberStatus)      (* lines 96-100 *)
| MsgBanError (name : string) (uid : Z) (e : Exception)     (* lines 103-105 *)
| MsgStatusChange (name : string) (uid : Z)
                  (old_status new_status : ChatMemberStatus) (* lines 109-112 *)
| MsgHandlerError (e : Exception)                           (* line 115 *)
| MsgStarting                                               (* line 136 *)
| MsgMonitoring (channel : Z)                               (* line 137 *)
| MsgStarted.                                               (* line 161 *)

Record LogRecord : Type := mkLog {
  level : Level;
  message : Message;
  exc_info : bool
}.

Inductive Effect : Type :=
| BanChatMember (chat user : Z)
| Log (r : LogRecord).

(** The ban commands of a trace, as (chat, user) pairs, and its log records. *)
Fixpoint ban_commands (t : list Effect) : list (Z * Z) :=
  match t with
  | [] => []
  | BanChatMember c u :: t' => (c, u) :: ban_commands t'
  | Log _ :: t' => ban_commands t'
  end.

Fixpoint log_records (t : list Effect) : list LogRecord :=
  match t with
  | [] => []
  | BanChatMember _ _ :: t' => log_records t'
  | Log r :: t' => r :: log_records t'
  end.

(** A log record of the class the specification calls [BanCommandFailed]. *)
Definition is_ban_failed (r : LogRecord) : bool :=
  match level r, message r with
  | ERROR, MsgBanError _ _ _ => true
  | _, _ => false
  end.

(** ** Computations *)

Inductive Outcome (A : Type) : Type :=
| Returned (a : A)
| Raised (e : Exception).
Arguments Returned {A} a.
Arguments Raised {A} e.

Record Run (B A : Type) : Type := mkRun {
  outcome : Outcome A;
  backend_after : B;
  effects : list Effect
}.
Arguments mkRun {B A} _ _ _.
Arguments outcome {B A} _.
Arguments backend_after {B A} _.
Arguments effects {B A} _.

Definition M (B A : Type) : Type := B -> Run B A.

Definition ret {B A} (a : A) : M B A := fun b => mkRun (Returned a) b [].

Definition raise {B A} (e : Exception) : M B A := fun b => mkRun (Raised e) b [].

Definition bind {B A C} (m : M B A) (k : A -> M B C) : M B C :=
  fun b =>
    let r := m b in
    match outcome r with
    | Returned a =>
        let r' := k a (backend_after r) in
        mkRun (outcome r') (backend_after r') (effects r ++ effects r')
    | Raised e => mkRun (Raised e) (backend_after r) (effects r)
    end.

(** [try: m except Exception as e: h e] *)
Definition try_except {B A} (m : M B A) (h : Exception -> M B A) : M B A :=
  fun b =>
    let r := m b in
    match outcome r with
    | Returned a => r
    | Raised e =>
        let r' := h e (backend_after r) in
        mkRun (outcome r') (backend_after r') (effects r ++ effects r')
    end.

Definition emit {B} (e : Effect) : M B unit := fun b => mkRun (Returned tt) b [e].

Declare Scope py_scope.
Delimit Scope py_scope with py.
Notation "x <- m ;; k" := (bind m (fun x => k))
  (at level 100, m at next level, right associativity) : py_scope.
Notation "m ;; k" := (bind m (fun _ => k))
  (at level 100, right associativity) : py_scope.
Open Scope py_scope.

(** [logger.info(..)], [logger.error(..)] and [logger.error(.., exc_info=True)]. *)
Definition logger_info {B} (m : Message) : M B unit := emit (Log (mkLog INFO m false)).
Definition logger_error {B} (m : Message) : M B unit := emit (Log (mkLog ERROR m false)).
Definition logger_error_exc {B} (m : Message) : M B unit := emit (Log (mkLog ERROR m true)).

(** Reading attribute [name] of the object [o] refers to. *)
Definition getattr {B O A} (o : option O) (name : string) (f : O -> A) : M B A :=
  match o with
  | Some x => ret (f x)
  | None => raise (AttributeError name)
  end.

(** Python's [a or b] on two optional objects (an object is truthy). *)
Definition py_or {A} (a b : option A) : option A :=
  match a with
  | Some _ => a
  | None => b
  end.

(** [s or default] on an optional string: [None] and the empty string are falsy. *)
Definition str_or (s : option string) (default : string) : string :=
  match s with
  | Some x => if String.eqb x EmptyString then default else x
  | None => default
  end.

(** The messaging backend behind [context.bot]: [ban_chat_member chat user]
    either returns ([None]) or raises ([Some e]), and may change the backend. *)
Record Bot (B : Type) : Type := mkBot {
  ban_chat_member_api : Z -> Z -> B -> option Exception * B
}.
Arguments mkBot {B} _.
Arguments ban_chat_member_api {B} _ _ _ _.

Record CallbackContext (B : Type) : Type := mkContext { bot : Bot B }.
Arguments mkContext {B} _.
Arguments bot {B} _.

(** [await context.bot.ban_chat_member(chat_id=.., user_id=..)]: the command is
    issued, then the call returns or raises. *)
Definition ban_chat_member {B} (bt : Bot B) (chat user : Z) : M B unit :=
  fun b =>
    let '(res, b') := ban_chat_member_api bt chat user b in
    mkRun (match res with None => Returned tt | Some e => Raised e end)
          b' [BanChatMember chat user].

(** ** The enumeration [telegram.constants.ChatMemberStatus] *)

(** The attributes of the enumeration in python-telegram-bot 20 and later, the
    versions that have the [Application] and [ContextTypes] the module
    imports, each with the status it denotes.  The status "kicked" is the
    member [BANNED]; the enumeration has no attribute [KICKED]. *)
Definition ChatMemberStatus_members : list (string * ChatMemberStatus) :=
  [("ADMINISTRATOR", ADMINISTRATOR); ("OWNER", OWNER); ("BANNED", KICKED);
   ("LEFT", LEFT); ("MEMBER", MEMBER); ("RESTRICTED", RESTRICTED)].

Fixpoint lookup_member (name : string) (l : list (string * ChatMemberStatus))
  : option ChatMemberStatus :=
  match l with
  | [] => None
  | (k, v) :: l' => if String.eqb name k then Some v else lookup_member name l'
  end.

(** [ChatMemberStatus.name]: the member, or [AttributeError] when the
    enumeration has no such attribute. *)
Definition ChatMemberStatus_attr {B} (name : string) : M B ChatMemberStatus :=
  match lookup_member name ChatMemberStatus_members with
  | Some s => ret s
  | None => raise (AttributeError name)
  end.

(** ** The handler (bot.py, lines 57-115) *)

Section Handler.
Context {B : Type}.
Variable CHANNEL_ID : Z.

(** Lines 83-86.  The first list is built, then tested; the second list is
    built only when the first test holds ([and] does not evaluate its right
    side otherwise). *)
Definition unsubscribed (old_status new_status : ChatMemberStatus) : M B bool :=
  member <- ChatMemberStatus_attr "MEMBER" ;;
  administrator <- ChatMemberStatus_attr "ADMINISTRATOR" ;;
  owner <- ChatMemberStatus_attr "OWNER" ;;
  if status_in old_status [member; administrator; owner] then
    left <- ChatMemberStatus_attr "LEFT" ;;
    kicked <- ChatMemberStatus_attr "KICKED" ;;
    ret (status_in new_status [left; kicked])
  else ret false.

(** The inner [try] statement, lines 89-105. *)
Definition ban_and_log (usr : option User) (old_status new_status : ChatMemberStatus)
           (context : CallbackContext B) : M B unit :=
  try_except
    (uid <- getattr usr "id" id ;;
     ban_chat_member (bot context) CHANNEL_ID uid ;;
     name <- getattr usr "full_name" full_name ;;
     uname <- getattr usr "username" username ;;
     logger_info (MsgBanned name uid (str_or uname "нет") old_status new_status))
    (fun e =>
       name <- getattr usr "full_name" full_name ;;
       uid <- getattr usr "id" id ;;
       logger_error (MsgBanError name uid e)).

(** The [try] block, lines 63-112. *)
Definition track_channel_member_body (update : Update) (context : CallbackContext B)
  : M B unit :=
  match py_or (my_chat_member update) (chat_member update) with
  | None => ret tt
  | Some result =>
      cid <- getattr (chat result) "id" chat_id ;;
      if negb (cid =? CHANNEL_ID) then ret tt else
      old_status <- getattr (old_chat_member result) "status" status ;;
      new_status <- getattr (new_chat_member result) "status" status ;;
      usr <- getattr (new_chat_member result) "user" user ;;
      bot_flag <- getattr usr "is_bot" is_bot ;;
      if bot_flag then ret tt else
      unsub <- unsubscribed old_status new_status ;;
      if unsub then ban_and_log usr old_status new_status context
      else if negb (status_eqb old_status new_status) then
        name <- getattr usr "full_name" full_name ;;
        uid <- getattr usr "id" id ;;
        logger_info (MsgStatusChange name uid old_status new_status)
      else ret tt
  end.

(** Lines 62 and 114-115 around it. *)
Definition track_channel_member (update : Update) (context : CallbackContext B)
  : M B unit :=
  try_except (track_channel_member_body update context)
             (fun e => logger_error_exc (MsgHandlerError e)).

End Handler.

(** ** The dispatch loop and the entry point *)

Section Loop.
Context {B : Type}.
Variable CHANNEL_ID : Z.

(** Modelled from the spec: the dispatch loop of section 4.3 (the loop that
    [run_polling] drives belongs to the host library).  Each delivered
    notification is handed to the handler, in order.  Nothing here protects
    the loop: an exception that leaves the handler would end it, so that the
    loop going on is a property of the handler. *)
Fixpoint dispatch (updates : list Update) (context : CallbackContext B) : M B unit :=
  match updates with
  | [] => ret tt
  | u :: rest =>
      track_channel_member CHANNEL_ID u context ;;
      dispatch rest context
  end.

(** Lines 134-162; [updates] is what [run_polling] delivers. *)
Definition main (updates : list Update) (context : CallbackContext B) : M B unit :=
  logger_info MsgStarting ;;
  logger_info (MsgMonitoring CHANNEL_ID) ;;
  logger_info MsgStarted ;;
  dispatch updates context.

End Loop.

(** ** Configuration (bot.py, lines 37-46) *)

(** Python's truth value of what [os.getenv] returns. *)
Definition truthy (v : option string) : bool :=
  match v with
  | Some s => negb (String.eqb s EmptyString)
  | None => false
  end.

Record Config : Type := mkConfig {
  BOT_TOKEN : string;
  CHANNEL_ID : Z
}.

Section Startup.
(** The builtin [int] on a [str]: the integer, or [None] where Python raises
    [ValueError]. *)
Variable py_int : string -> option Z.
(** [os.getenv] after [load_dotenv()]. *)
Variable getenv : string -> option string.

Definition load_config : Outcome Config :=
  let token := getenv "BOT_TOKEN" in
  let channel := getenv "CHANNEL_ID" in
  if negb (truthy token) || negb (truthy channel) then
    Raised (ValueError "Необходимо указать BOT_TOKEN и CHANNEL_ID в файле .env")
  else
    match token, channel with
    | Some t, Some c =>
        match py_int c with
        | Some n => Returned (mkConfig t n)
        | None => Raised (ValueError "CHANNEL_ID должен быть числом")
        end
    | _, _ => (* not reached: a truthy value is a string *)
        Raised (ValueError "Необходимо указать BOT_TOKEN и CHANNEL_ID в файле .env")
    end.

(** The module run as a script: the configuration block, then [main()]. *)
Definition program {B} (updates : list Update) (context : CallbackContext B) : M B unit :=
  match load_config with
  | Returned cfg => main (CHANNEL_ID cfg) updates context
  | Raised e => raise e
  end.

End Startup.

(** ** The vocabulary of the specification *)

Module Spec.

Inductive EventKind : Type := OwnMembership | OtherMembership.

(** Section 3. *)
Record MembershipEvent : Type := mkEvent {
  chatId : Z;
  userId : Z;
  userDisplayName : string;
  userIsBot : bool;
  oldStatus : ChatMemberStatus;
  newStatus : ChatMemberStatus;
  eventKind : EventKind
}.

Inductive Decision : Type :=
| Ignore
| Ban (userId : Z)
| LogOnly (oldStatus newStatus : ChatMemberStatus).

Definition Subscribed : list ChatMemberStatus := [OWNER; ADMINISTRATOR; MEMBER].
Definition Unsubscribed : list ChatMemberStatus := [LEFT; KICKED].

(** Section 4.1, rules 1 to 5 as the specification words them; the
    theorems below compare the handler with it. *)
Definition classify (ev : MembershipEvent) (target : Z) : Decision :=
  if negb (chatId ev =? target) then Ignore
  else if userIsBot ev then Ignore
  else if status_in (oldStatus ev) Subscribed && status_in (newStatus ev) Unsubscribed
       then Ban (userId ev)
  else if negb (status_eqb (oldStatus ev) (newStatus ev))
       then LogOnly (oldStatus ev) (newStatus ev)
  else Ignore.

Definition event_of (k : EventKind) (r : ChatMemberUpdated) : option MembershipEvent :=
  match chat r, old_chat_member r, new_chat_member r with
  | Some c, Some o, Some n =>
      match user n with
      | Some u =>
          Some (mkEvent (chat_id c) (id u) (full_name u) (is_bot u)
                        (status o) (status n) k)
      | None => None
      end
  | _, _, _ => None
  end.

(** The event a notification carries: the record the handler selects on
    line 64 and the attributes it reads from it; [None] is [MalformedEvent]. *)
Definition decode (u : Update) : option MembershipEvent :=
  match my_chat_member u, chat_member u with
  | Some r, _ => event_of OwnMembership r
  | None, Some r => event_of OtherMembership r
  | None, None => None
  end.

End Spec.

(** ** The [try] block on a decoded event *)

(** The record line 115 writes when the lookup of line 85 fails. *)
Definition kicked_fault : LogRecord :=
  mkLog ERROR (MsgHandlerError (AttributeError "KICKED")) true.

(** What the [try] block comes to on the event a notification carries
    ([body_on_event] below): the two returns of lines 70-71 and 78-79, the
    failing lookup of line 85 when the old status is one of the first list, and
    the record of lines 109-112 otherwise when the status changed. *)
Definition body_on {B} (CHANNEL_ID : Z) (ev : Spec.MembershipEvent) (b : B)
  : Run B unit :=
  if negb (Spec.chatId ev =? CHANNEL_ID) then mkRun (Returned tt) b []
  else if Spec.userIsBot ev then mkRun (Returned tt) b []
  else if status_in (Spec.oldStatus ev) [MEMBER; ADMINISTRATOR; OWNER]
       then mkRun (Raised (AttributeError "KICKED")) b []
  else if negb (status_eqb (Spec.oldStatus ev) (Spec.newStatus ev))
       then mkRun (Returned tt) b
              [Log (mkLog INFO (MsgStatusChange (Spec.userDisplayName ev) (Spec.userId ev)
                                                (Spec.oldStatus ev) (Spec.newStatus ev))
                          false)]
  else mkRun (Returned tt) b [].

(** ** Concrete environments *)

(** An instance of the builtin [int] for the examples: an optional sign
    followed by ASCII decimal digits. *)
Definition digit_of (c : ascii) : option Z :=
  let n := Z.of_nat (nat_of_ascii c) in
  if (48 <=? n) && (n <=? 57) then Some (n - 48) else None.

Fixpoint digits (s : string) (acc : Z) : option Z :=
  match s with
  | EmptyString => Some acc
  | String c s' =>
      match digit_of c with
      | Some d => digits s' (10 * acc + d)
      | None => None
      end
  end.

Definition int_decimal (s : string) : option Z :=
  match s with
  | EmptyString => None
  | String "-" (String _ _ as t) => option_map Z.opp (digits t 0)
  | String "+" (String _ _ as t) => digits t 0
  | _ => digits s 0
  end.

(** A process environment that sets at most the two variables. *)
Definition env_of (token channel : option string) : string -> option string :=
  fun name =>
    if String.eqb name "BOT_TOKEN" then token
    else if String.eqb name "CHANNEL_ID" then channel
    else None.

(** A backend that counts the calls it received and accepts every ban. *)
Definition accepting_bot : Bot nat :=
  mkBot (fun _ _ calls => (None, S calls)).

(** A backend that counts the calls it received and rejects every ban. *)
Definition rejecting_bot : Bot nat :=
  mkBot (fun _ _ calls => (Some (TelegramError "Forbidden: not enough rights"), S calls)).

Definition channel : Z := -1001234567890.

Definition alice : User := mkUser 777 false "Alice Doe" (Some "alice").
Definition helper_bot : User := mkUser 555 true "Helper" None.

(** A well-formed record: [u] went from [old_status] to [new_status] in [chat]. *)
Definition transition (chat : Z) (u : User) (old_status new_status : ChatMemberStatus)
  : ChatMemberUpdated :=
  mkChatMemberUpdated (Some (mkChat chat))
                      (Some (mkChatMember (Some u) old_status))
                      (Some (mkChatMember (Some u) new_status)).

Definition other_member (r : ChatMemberUpdated) : Update := mkUpdate None (Some r).
Definition own_member (r : ChatMemberUpdated) : Update := mkUpdate (Some r) None.

(** A notification with neither record, and one whose record lacks its chat. *)
Definition empty_update : Update := mkUpdate None None.
Definition chatless_update : Update :=
  other_member (mkChatMemberUpdated None
                  (Some (mkChatMember (Some alice) MEMBER))
                  (Some (mkChatMember (Some alice) LEFT))).

(** Alice leaves the target channel, as a notification and as the event it
    carries. *)
Definition alice_left : Update := other_member (transition channel alice MEMBER LEFT).

Definition alice_left_event : Spec.MembershipEvent :=
  Spec.mkEvent channel 777 "Alice Doe" false MEMBER LEFT Spec.OtherMembership.

(** ** The operator commands (bot.py, lines 49-54 and 118-126) *)

Module Commands.

(** The texts handed to [reply_text]: the fixed text of [start], and the text
    of [stats] with the two values its format string interpolates. *)
Inductive ReplyText : Type :=
| StartReply                                   (* lines 52-53 *)
| StatsReply (channel_id : Z) (clock : string). (* lines 124-125 *)

(** A message object: its [reply_text] method either returns ([None]) or
    raises ([Some e]), and may change the backend. *)
Record Message (B : Type) : Type := mkMessage {
  reply_text_api : ReplyText -> B -> option Exception * B
}.
Arguments mkMessage {B} _.
Arguments reply_text_api {B} _ _ _.

(** The attribute of the update that the two command handlers read. *)
Record Update (B : Type) : Type := mkUpdate {
  message : option (Message B)
}.
Arguments mkUpdate {B} _.
Arguments message {B} _.

(** What a command handler did: its outcome, the backend afterwards and the
    replies it sent, in order. *)
Record Run (B : Type) : Type := mkRun {
  outcome : Outcome unit;
  backend_after : B;
  replies : list ReplyText
}.
Arguments mkRun {B} _ _ _.
Arguments outcome {B} _.
Arguments backend_after {B} _.
Arguments replies {B} _.

(** [await m.reply_text(text)]: the reply is sent, then the call returns or
    raises. *)
Definition reply_text {B} (m : Message B) (text : ReplyText) (b : B) : Run B :=
  let '(res, b') := reply_text_api m text b in
  mkRun (match res with None => Returned tt | Some e => Raised e end) b' [text].

(** Lines 49-54: no test of [update.message] before the call. *)
Definition start {B} (update : Update B) (b : B) : Run B :=
  match message update with
  | Some m => reply_text m StartReply b
  | None => mkRun (Raised (AttributeError "reply_text")) b []
  end.

(** Lines 118-126; [clock] is [datetime.now().strftime(..)] as read when the
    text is built. *)
Definition stats {B} (CHANNEL_ID : Z) (clock : string) (update : Update B) (b : B)
  : Run B :=
  match message update with
  | None => mkRun (Returned tt) b []
  | Some m => reply_text m (StatsReply CHANNEL_ID clock) b
  end.

(** Message objects for the examples: one whose replies go through, one whose
    replies are refused; both count the calls. *)
Definition open_chat : Message nat :=
  mkMessage (fun _ calls => (None, S calls)).

Definition closed_chat : Message nat :=
  mkMessage (fun _ calls => (Some (TelegramError "Forbidden: bot was blocked"), S calls)).

End Commands.

(** A user without a username. *)
Definition bob : User := mkUser 888 false "Bob" None.

(** Alice restricted, then gone; Bob restricted, then let in; a member whose
    rights are cut; and a notification with both records. *)
Definition alice_restricted_left : ChatMemberUpdated :=
  transition channel alice RESTRICTED LEFT.

Definition bob_admitted : ChatMemberUpdated :=
  transition channel bob RESTRICTED MEMBER.

Definition alice_cut : Update := other_member (transition channel alice MEMBER RESTRICTED).

Definition both_records : Update :=
  mkUpdate (Some alice_restricted_left) (Some bob_admitted).

(** A record of another chat that has lost its members. *)
Definition foreign_stub : Update :=
  other_member (mkChatMemberUpdated (Some (mkChat 42)) None None).

(** ** Properties of the status tests *)

Import Spec.

Lemma status_eqb_eq (a b : ChatMemberStatus) : status_eqb a b = true <-> a = b.
Proof.
  unfold status_eqb.
  destruct (ChatMemberStatus_eq_dec a b) as [E | N]; split; intro H;
    try reflexivity; try assumption; try discriminate.
  contradiction.
Qed.

Lemma status_eqb_refl (a : ChatMemberStatus) : status_eqb a a = true.
Proof. now apply status_eqb_eq. Qed.

Lemma status_eqb_neq (a b : ChatMemberStatus) : status_eqb a b = false <-> a <> b.
Proof.
  rewrite <- status_eqb_eq.
  destruct (status_eqb a b); split; intro H;
    try reflexivity; try discriminate; now elim H.
Qed.

Lemma status_in_In (x : ChatMemberStatus) (l : list ChatMemberStatus) :
  status_in x l = true <-> In x l.
Proof.
  unfold status_in.
  induction l as [| y l IH]; simpl.
  - split; [discriminate | contradiction].
  - rewrite orb_true_iff, IH, status_eqb_eq.
    split; (intros [H | H]; [left; now symmetry | now right]).
Qed.

Lemma status_in_not_In (x : ChatMemberStatus) (l : list ChatMemberStatus) :
  status_in x l = false <-> ~ In x l.
Proof.
  rewrite <- status_in_In.
  destruct (status_in x l); split; intro H;
    try reflexivity; try discriminate; now elim H.
Qed.

(** The test of lines 83-86 is the membership test of rule 3. *)
(** The first list of line 84 holds the statuses of rule 3. *)
Lemma subscribed_old (o : ChatMemberStatus) :
  status_in o [MEMBER; ADMINISTRATOR; OWNER] = true <->
  In o [OWNER; ADMINISTRATOR; MEMBER].
Proof.
  rewrite status_in_In. cbn [In]. tauto.
Qed.

Lemma not_subscribed_old (o : ChatMemberStatus) :
  status_in o [MEMBER; ADMINISTRATOR; OWNER] = false <->
  ~ In o [OWNER; ADMINISTRATOR; MEMBER].
Proof.
  rewrite status_in_not_In. cbn [In]. tauto.
Qed.

(** No status is both subscribed and unsubscribed. *)
Lemma no_status_in_both (s : ChatMemberStatus) :
  status_in s Subscribed && status_in s Unsubscribed = false.
Proof. destruct s; reflexivity. Qed.

(** ** What a decoded event says about the notification *)

Lemma decode_inv (u : Update) (ev : MembershipEvent) :
  decode u = Some ev ->
  exists r c o n us,
    py_or (my_chat_member u) (chat_member u) = Some r /\
    chat r = Some c /\ old_chat_member r = Some o /\
    new_chat_member r = Some n /\ user n = Some us /\
    chatId ev = chat_id c /\ userId ev = id us /\
    userDisplayName ev = full_name us /\ userIsBot ev = is_bot us /\
    oldStatus ev = status o /\ newStatus ev = status n.
Proof.
  unfold decode, event_of, py_or.
  destruct u as [[r |] [r' |]]; simpl; try discriminate.
  all: match goal with
       | |- context [chat ?x] =>
           destruct (chat x) as [c |] eqn:Ec; try discriminate;
           destruct (old_chat_member x) as [o |] eqn:Eo; try discriminate;
           destruct (new_chat_member x) as [n |] eqn:En; try discriminate;
           destruct (user n) as [us |] eqn:Eu; try discriminate;
           intro H; injection H as <-;
           exists x, c, o, n, us; simpl; repeat split; assumption
       end.
Qed.

(** The event of a notification is the event of the record line 64 selects. *)
Lemma decode_py_or (u : Update) (r : ChatMemberUpdated) :
  py_or (my_chat_member u) (chat_member u) = Some r ->
  exists k, decode u = event_of k r.
Proof.
  unfold decode, py_or.
  destruct (my_chat_member u) as [r1 |]; [| destruct (chat_member u) as [r2 |]];
    intro H; try discriminate H; injection H as <-; eexists; reflexivity.
Qed.

(** Whether a record decodes does not depend on its kind. *)
Lemma event_of_None_kind (k k' : EventKind) (r : ChatMemberUpdated) :
  event_of k r = None -> event_of k' r = None.
Proof.
  unfold event_of.
  destruct (chat r), (old_chat_member r), (new_chat_member r) as [n |];
    try reflexivity.
  destruct (user n); [discriminate | reflexivity].
Qed.

(** ** Computations, step by step *)

Section Steps.
Context {B : Type}.

Lemma run_eta {A} (r : Run B A) :
  mkRun (outcome r) (backend_after r) (effects r) = r.
Proof. now destruct r. Qed.

Lemma bind_ret {A C} (a : A) (k : A -> M B C) (b : B) :
  bind (ret a) k b = k a b.
Proof. unfold bind, ret; cbn. apply run_eta. Qed.

Lemma bind_raise {A C} (e : Exception) (k : A -> M B C) (b : B) :
  bind (raise e) k b = mkRun (Raised e) b [].
Proof. reflexivity. Qed.

Lemma bind_getattr_Some {O A C} (x : O) (name : string) (f : O -> A)
      (k : A -> M B C) (b : B) :
  bind (getattr (Some x) name f) k b = k (f x) b.
Proof. apply bind_ret. Qed.

Lemma bind_getattr_None {O A C} (name : string) (f : O -> A)
      (k : A -> M B C) (b : B) :
  bind (getattr None name f) k b = mkRun (Raised (AttributeError name)) b [].
Proof. reflexivity. Qed.

(** The ban call followed by [k]: the command is in the trace either way, and
    [k] runs only when the call returned. *)
Lemma bind_ban {C} (bt : Bot B) (c v : Z) (k : unit -> M B C) (b : B) :
  bind (ban_chat_member bt c v) k b =
  match ban_chat_member_api bt c v b with
  | (None, b') =>
      mkRun (outcome (k tt b')) (backend_after (k tt b'))
            (BanChatMember c v :: effects (k tt b'))
  | (Some e, b') => mkRun (Raised e) b' [BanChatMember c v]
  end.
Proof.
  unfold bind, ban_chat_member.
  destruct (ban_chat_member_api bt c v b) as [[e |] b']; reflexivity.
Qed.

Lemma try_except_Returned {A} (m : M B A) (h : Exception -> M B A) (b : B) (a : A) :
  outcome (m b) = Returned a -> try_except m h b = m b.
Proof. intro H. unfold try_except. now rewrite H. Qed.

Lemma try_except_Raised {A} (m : M B A) (h : Exception -> M B A) (b : B)
      (e : Exception) :
  outcome (m b) = Raised e ->
  try_except m h b =
  mkRun (outcome (h e (backend_after (m b))))
        (backend_after (h e (backend_after (m b))))
        (effects (m b) ++ effects (h e (backend_after (m b)))).
Proof. intro H. unfold try_except. now rewrite H. Qed.

End Steps.

(** ** The handler on one notification *)

Section HandlerProperties.
Context {B : Type}.
Variable CHANNEL_ID : Z.

Local Abbreviation handler := (track_channel_member (B:=B) CHANNEL_ID).
Local Abbreviation body := (track_channel_member_body (B:=B) CHANNEL_ID).
Local Abbreviation loop := (dispatch (B:=B) CHANNEL_ID).

(** The five lookups of lines 84-85. *)
Lemma attr_MEMBER : ChatMemberStatus_attr (B:=B) "MEMBER" = ret MEMBER.
Proof. reflexivity. Qed.

Lemma attr_ADMINISTRATOR : ChatMemberStatus_attr (B:=B) "ADMINISTRATOR" = ret ADMINISTRATOR.
Proof. reflexivity. Qed.

Lemma attr_OWNER : ChatMemberStatus_attr (B:=B) "OWNER" = ret OWNER.
Proof. reflexivity. Qed.

Lemma attr_LEFT : ChatMemberStatus_attr (B:=B) "LEFT" = ret LEFT.
Proof. reflexivity. Qed.

Lemma attr_KICKED :
  ChatMemberStatus_attr (B:=B) "KICKED" = raise (AttributeError "KICKED").
Proof. reflexivity. Qed.

(** Lines 83-86 never yield [True]: with an old status of the first list the
    second list cannot be built, and otherwise the test is [False]. *)
Lemma unsubscribed_run (o n : ChatMemberStatus) (b : B) :
  unsubscribed o n b =
  if status_in o [MEMBER; ADMINISTRATOR; OWNER]
  then mkRun (Raised (AttributeError "KICKED")) b []
  else mkRun (Returned false) b [].
Proof.
  unfold unsubscribed.
  rewrite attr_MEMBER, bind_ret, attr_ADMINISTRATOR, bind_ret, attr_OWNER, bind_ret.
  destruct (status_in o [MEMBER; ADMINISTRATOR; OWNER]); [| reflexivity].
  rewrite attr_LEFT, bind_ret, attr_KICKED, bind_raise. reflexivity.
Qed.

Lemma bind_unsubscribed {C} (o n : ChatMemberStatus) (k : bool -> M B C) (b : B) :
  bind (unsubscribed o n) k b =
  if status_in o [MEMBER; ADMINISTRATOR; OWNER]
  then mkRun (Raised (AttributeError "KICKED")) b []
  else k false b.
Proof.
  unfold bind at 1. rewrite unsubscribed_run.
  destruct (status_in o [MEMBER; ADMINISTRATOR; OWNER]);
    cbn [outcome backend_after effects app]; [reflexivity | apply run_eta].
Qed.

(** The inner [try] statement by itself: the command is issued once, a raising
    call is caught and logged as a failed ban, and nothing is raised. *)
Lemma ban_and_log_run (us : User) (o n : ChatMemberStatus)
      (context : CallbackContext B) (b : B) :
  ban_and_log CHANNEL_ID (Some us) o n context b =
  mkRun (Returned tt)
        (snd (ban_chat_member_api (bot context) CHANNEL_ID (id us) b))
        [BanChatMember CHANNEL_ID (id us);
         Log (match fst (ban_chat_member_api (bot context) CHANNEL_ID (id us) b) with
              | None =>
                  mkLog INFO (MsgBanned (full_name us) (id us)
                                        (str_or (username us) "нет") o n) false
              | Some e => mkLog ERROR (MsgBanError (full_name us) (id us) e) false
              end)].
Proof.
  unfold ban_and_log, try_except. rewrite bind_getattr_Some, bind_ban.
  destruct (ban_chat_member_api (bot context) CHANNEL_ID (id us) b) as [[e |] b'].
  - cbn [outcome backend_after effects fst snd].
    rewrite !bind_getattr_Some. reflexivity.
  - rewrite !bind_getattr_Some. reflexivity.
Qed.

(** The [try] block on a record that has everything the handler reads. *)
Lemma body_on_record (u : Update) (r : ChatMemberUpdated) (c : Chat)
      (o n : ChatMember) (us : User) (context : CallbackContext B) (b : B) :
  py_or (my_chat_member u) (chat_member u) = Some r ->
  chat r = Some c -> old_chat_member r = Some o ->
  new_chat_member r = Some n -> user n = Some us ->
  body u context b =
  body_on CHANNEL_ID
          (mkEvent (chat_id c) (id us) (full_name us) (is_bot us)
                   (status o) (status n) OtherMembership) b.
Proof.
  intros Hr Hc Ho Hn Hu.
  unfold body_on.
  cbn [chatId userId userDisplayName userIsBot oldStatus newStatus].
  unfold track_channel_member_body. rewrite Hr, Hc, bind_getattr_Some.
  destruct (chat_id c =? CHANNEL_ID); cbn [negb]; [| reflexivity].
  rewrite Ho, bind_getattr_Some, Hn, !bind_getattr_Some, Hu, bind_getattr_Some.
  destruct (is_bot us); [reflexivity |].
  rewrite bind_unsubscribed.
  destruct (status_in (status o) [MEMBER; ADMINISTRATOR; OWNER]); [reflexivity |].
  destruct (status_eqb (status o) (status n)); cbn [negb]; [reflexivity |].
  rewrite !bind_getattr_Some. reflexivity.
Qed.

Lemma body_on_event (u : Update) (ev : MembershipEvent)
      (context : CallbackContext B) (b : B) :
  decode u = Some ev -> body u context b = body_on CHANNEL_ID ev b.
Proof.
  intro D.
  destruct (decode_inv u ev D)
    as (r & c & o & n & us & Hr & Hc & Ho & Hn & Hu & E1 & E2 & E3 & E4 & E5 & E6).
  rewrite (body_on_record u r c o n us context b Hr Hc Ho Hn Hu).
  unfold body_on.
  cbn [chatId userId userDisplayName userIsBot oldStatus newStatus].
  now rewrite E1, E2, E3, E4, E5, E6.
Qed.

(** Lines 114-115 on what the [try] block did. *)
Lemma handler_of_returned (u : Update) (context : CallbackContext B) (b : B)
      (t : list Effect) :
  body u context b = mkRun (Returned tt) b t ->
  handler u context b = mkRun (Returned tt) b t.
Proof.
  intro E. unfold track_channel_member, try_except. now rewrite E.
Qed.

Lemma handler_of_raised (u : Update) (context : CallbackContext B) (b : B)
      (e : Exception) :
  body u context b = mkRun (Raised e) b [] ->
  handler u context b =
  mkRun (Returned tt) b [Log (mkLog ERROR (MsgHandlerError e) true)].
Proof.
  intro E. unfold track_channel_member, try_except. now rewrite E.
Qed.

(** The handler never lets an exception out. *)
Lemma handler_returns (u : Update) (context : CallbackContext B) (b : B) :
  outcome (handler u context b) = Returned tt.
Proof.
  unfold track_channel_member, try_except.
  destruct (outcome (body u context b)) as [[] | e] eqn:E.
  - exact E.
  - reflexivity.
Qed.

(** The [try] block on a notification that does not decode, case by case. *)
Lemma body_no_record (u : Update) (context : CallbackContext B) (b : B) :
  py_or (my_chat_member u) (chat_member u) = None ->
  body u context b = mkRun (Returned tt) b [].
Proof.
  intro Hr. unfold track_channel_member_body. now rewrite Hr.
Qed.

Lemma body_no_chat (u : Update) (r : ChatMemberUpdated)
      (context : CallbackContext B) (b : B) :
  py_or (my_chat_member u) (chat_member u) = Some r -> chat r = None ->
  body u context b = mkRun (Raised (AttributeError "id")) b [].
Proof.
  intros Hr Hc. unfold track_channel_member_body.
  now rewrite Hr, Hc, bind_getattr_None.
Qed.

Lemma body_foreign (u : Update) (r : ChatMemberUpdated) (c : Chat)
      (context : CallbackContext B) (b : B) :
  py_or (my_chat_member u) (chat_member u) = Some r -> chat r = Some c ->
  chat_id c <> CHANNEL_ID ->
  body u context b = mkRun (Returned tt) b [].
Proof.
  intros Hr Hc Hne. unfold track_channel_member_body.
  rewrite Hr, Hc, bind_getattr_Some.
  apply Z.eqb_neq in Hne. now rewrite Hne.
Qed.

Lemma body_target_incomplete (u : Update) (r : ChatMemberUpdated) (c : Chat)
      (context : CallbackContext B) (b : B) :
  py_or (my_chat_member u) (chat_member u) = Some r -> chat r = Some c ->
  chat_id c = CHANNEL_ID -> decode u = None ->
  exists name, body u context b = mkRun (Raised (AttributeError name)) b [].
Proof.
  intros Hr Hc He D.
  destruct (decode_py_or u r Hr) as [k Hk]. rewrite Hk in D.
  unfold event_of in D. rewrite Hc in D.
  unfold track_channel_member_body. rewrite Hr, Hc, bind_getattr_Some.
  rewrite He, Z.eqb_refl. cbn [negb].
  destruct (old_chat_member r) as [o |];
    [rewrite bind_getattr_Some | eexists; apply bind_getattr_None].
  destruct (new_chat_member r) as [n |];
    [rewrite !bind_getattr_Some | eexists; apply bind_getattr_None].
  destruct (user n) as [us |];
    [discriminate D | eexists; apply bind_getattr_None].
Qed.

(** What the [try] block does with a notification that does not decode:
    it returns or raises at once, with nothing sent and nothing logged. *)
Lemma body_not_decoded (u : Update) (context : CallbackContext B) (b : B) :
  decode u = None ->
  body u context b = mkRun (Returned tt) b [] \/
  exists e, body u context b = mkRun (Raised e) b [].
Proof.
  intro D.
  destruct (py_or (my_chat_member u) (chat_member u)) as [r |] eqn:Hr.
  - destruct (chat r) as [c |] eqn:Hc.
    + destruct (Z.eq_dec (chat_id c) CHANNEL_ID) as [He | Hne].
      * right. destruct (body_target_incomplete u r c context b Hr Hc He D) as [name E].
        eexists; exact E.
      * left. exact (body_foreign u r c context b Hr Hc Hne).
    + right. eexists. exact (body_no_chat u r context b Hr Hc).
  - left. exact (body_no_record u context b Hr).
Qed.

(** An exception leaves the [try] block before anything was sent or logged. *)
Lemma body_raise_silent (u : Update) (context : CallbackContext B) (b : B)
      (e : Exception) :
  outcome (body u context b) = Raised e ->
  effects (body u context b) = [] /\ backend_after (body u context b) = b.
Proof.
  destruct (decode u) as [ev |] eqn:D.
  - rewrite (body_on_event u ev context b D). unfold body_on.
    destruct (negb (chatId ev =? CHANNEL_ID)); [intro H; discriminate H |].
    destruct (userIsBot ev); [intro H; discriminate H |].
    destruct (status_in (oldStatus ev) [MEMBER; ADMINISTRATOR; OWNER]);
      [intros _; split; reflexivity |].
    destruct (negb (status_eqb (oldStatus ev) (newStatus ev)));
      intro H; discriminate H.
  - destruct (body_not_decoded u context b D) as [E | [e' E]];
      rewrite E; intros _; split; reflexivity.
Qed.

(** The whole run of the handler on a notification that does not decode. *)
Lemma handler_not_decoded (u : Update) (context : CallbackContext B) (b : B) :
  decode u = None ->
  handler u context b = mkRun (Returned tt) b [] \/
  exists e, handler u context b =
            mkRun (Returned tt) b [Log (mkLog ERROR (MsgHandlerError e) true)].
Proof.
  intro D.
  destruct (body_not_decoded u context b D) as [E | [e E]].
  - left. exact (handler_of_returned u context b [] E).
  - right. exists e. exact (handler_of_raised u context b e E).
Qed.

(** The whole run of the handler on a notification that decodes. *)
Lemma handler_on_event (u : Update) (ev : MembershipEvent)
      (context : CallbackContext B) (b : B) :
  decode u = Some ev ->
  handler u context b =
  if negb (chatId ev =? CHANNEL_ID) then mkRun (Returned tt) b []
  else if userIsBot ev then mkRun (Returned tt) b []
  else if status_in (oldStatus ev) [MEMBER; ADMINISTRATOR; OWNER]
       then mkRun (Returned tt) b [Log kicked_fault]
  else if negb (status_eqb (oldStatus ev) (newStatus ev))
       then mkRun (Returned tt) b
              [Log (mkLog INFO (MsgStatusChange (userDisplayName ev) (userId ev)
                                                (oldStatus ev) (newStatus ev))
                          false)]
  else mkRun (Returned tt) b [].
Proof.
  intro D. unfold track_channel_member, try_except.
  rewrite (body_on_event u ev context b D). unfold body_on.
  destruct (negb (chatId ev =? CHANNEL_ID)); [reflexivity |].
  destruct (userIsBot ev); [reflexivity |].
  destruct (status_in (oldStatus ev) [MEMBER; ADMINISTRATOR; OWNER]); [reflexivity |].
  destruct (negb (status_eqb (oldStatus ev) (newStatus ev))); reflexivity.
Qed.

(** The handler issues no ban command and leaves the backend as it was. *)
Lemma handler_frame (u : Update) (context : CallbackContext B) (b : B) :
  ban_commands (effects (handler u context b)) = [] /\
  backend_after (handler u context b) = b.
Proof.
  destruct (decode u) as [ev |] eqn:D.
  - rewrite (handler_on_event u ev context b D).
    destruct (negb (chatId ev =? CHANNEL_ID)); [split; reflexivity |].
    destruct (userIsBot ev); [split; reflexivity |].
    destruct (status_in (oldStatus ev) [MEMBER; ADMINISTRATOR; OWNER]);
      [split; reflexivity |].
    destruct (negb (status_eqb (oldStatus ev) (newStatus ev))); split; reflexivity.
  - destruct (handler_not_decoded u context b D) as [-> | [e ->]];
      split; reflexivity.
Qed.

(** The handler on an event of the target channel, from a user that is not a
    bot, whose old status is one of the first list. *)
Lemma handler_subscribed_old (u : Update) (ev : MembershipEvent)
      (context : CallbackContext B) (b : B) :
  decode u = Some ev ->
  chatId ev = CHANNEL_ID -> userIsBot ev = false ->
  In (oldStatus ev) [OWNER; ADMINISTRATOR; MEMBER] ->
  handler u context b = mkRun (Returned tt) b [Log kicked_fault].
Proof.
  intros D Hc Hb Ho.
  rewrite (handler_on_event u ev context b D), Hc, Z.eqb_refl, Hb.
  apply subscribed_old in Ho. now rewrite Ho.
Qed.

(** The same, with an old status that is not of the first list. *)
Lemma handler_other_old (u : Update) (ev : MembershipEvent)
      (context : CallbackContext B) (b : B) :
  decode u = Some ev ->
  chatId ev = CHANNEL_ID -> userIsBot ev = false ->
  ~ In (oldStatus ev) [OWNER; ADMINISTRATOR; MEMBER] ->
  handler u context b =
  if negb (status_eqb (oldStatus ev) (newStatus ev))
  then mkRun (Returned tt) b
         [Log (mkLog INFO (MsgStatusChange (userDisplayName ev) (userId ev)
                                           (oldStatus ev) (newStatus ev)) false)]
  else mkRun (Returned tt) b [].
Proof.
  intros D Hc Hb Ho.
  rewrite (handler_on_event u ev context b D), Hc, Z.eqb_refl, Hb.
  apply not_subscribed_old in Ho. now rewrite Ho.
Qed.

(** One turn of the loop. *)
Lemma dispatch_step (u : Update) (rest : list Update)
      (context : CallbackContext B) (b : B) :
  loop (u :: rest) context b =
  mkRun (outcome (loop rest context (backend_after (handler u context b))))
        (backend_after (loop rest context (backend_after (handler u context b))))
        (effects (handler u context b)
           ++ effects (loop rest context (backend_after (handler u context b)))).
Proof.
  cbn [dispatch]. unfold bind at 1.
  now rewrite handler_returns.
Qed.

(** The loop reaches the end of every finite stream of notifications. *)
Lemma dispatch_returns (updates : list Update) (context : CallbackContext B) (b : B) :
  outcome (loop updates context b) = Returned tt.
Proof.
  revert b; induction updates as [| u rest IH]; intro b.
  - reflexivity.
  - rewrite dispatch_step. cbn [outcome]. apply IH.
Qed.

(** The loop over a stream is the loop over its first part, then over the rest
    from the backend the first part left. *)
Lemma dispatch_app (us vs : list Update) (context : CallbackContext B) (b : B) :
  effects (loop (us ++ vs) context b) =
  (effects (loop us context b)
     ++ effects (loop vs context (backend_after (loop us context b))))%list /\
  backend_after (loop (us ++ vs) context b) =
  backend_after (loop vs context (backend_after (loop us context b))).
Proof.
  revert b; induction us as [| u us IH]; intro b.
  - split; reflexivity.
  - rewrite <- app_comm_cons, !dispatch_step. cbn [effects backend_after].
    destruct (IH (backend_after (handler u context b))) as [He Hb].
    rewrite He, Hb, app_assoc. split; reflexivity.
Qed.

(** The decision of rules 1 to 5, case by case. *)
Lemma classify_ban (ev : MembershipEvent) :
  chatId ev = CHANNEL_ID -> userIsBot ev = false ->
  In (oldStatus ev) [OWNER; ADMINISTRATOR; MEMBER] ->
  In (newStatus ev) [LEFT; KICKED] ->
  classify ev CHANNEL_ID = Ban (userId ev).
Proof.
  intros Hc Hb Ho Hn. unfold classify.
  rewrite Hc, Z.eqb_refl, Hb. cbn [negb].
  apply status_in_In in Ho, Hn. fold Subscribed in Ho. fold Unsubscribed in Hn.
  now rewrite Ho, Hn.
Qed.

Lemma classify_foreign (ev : MembershipEvent) :
  chatId ev <> CHANNEL_ID -> classify ev CHANNEL_ID = Ignore.
Proof.
  intro Hc. unfold classify.
  apply Z.eqb_neq in Hc. now rewrite Hc.
Qed.

Lemma classify_bot (ev : MembershipEvent) :
  userIsBot ev = true -> classify ev CHANNEL_ID = Ignore.
Proof.
  intro Hb. unfold classify. rewrite Hb.
  now destruct (negb (chatId ev =? CHANNEL_ID)).
Qed.

Lemma classify_log_only (ev : MembershipEvent) :
  chatId ev = CHANNEL_ID -> userIsBot ev = false ->
  oldStatus ev <> newStatus ev ->
  ~ In (oldStatus ev) [OWNER; ADMINISTRATOR; MEMBER]
  \/ ~ In (newStatus ev) [LEFT; KICKED] ->
  classify ev CHANNEL_ID = LogOnly (oldStatus ev) (newStatus ev).
Proof.
  intros Hc Hb Hd Hn. unfold classify.
  rewrite Hc, Z.eqb_refl, Hb. cbn [negb].
  assert (K : status_in (oldStatus ev) Subscribed
              && status_in (newStatus ev) Unsubscribed = false).
  { apply andb_false_iff.
    destruct Hn as [H | H]; [left | right]; now apply status_in_not_In. }
  rewrite K. apply status_eqb_neq in Hd. now rewrite Hd.
Qed.

Lemma classify_unchanged (ev : MembershipEvent) :
  chatId ev = CHANNEL_ID -> userIsBot ev = false ->
  oldStatus ev = newStatus ev ->
  classify ev CHANNEL_ID = Ignore.
Proof.
  intros Hc Hb He. unfold classify.
  rewrite Hc, Z.eqb_refl, Hb. cbn [negb].
  rewrite He, no_status_in_both, status_eqb_refl.
  reflexivity.
Qed.

(** ** The classification rules on the handler *)

(** C1 (the code departs from it).  On every event of the target channel,
    from a user that is not a bot, whose old status is Owner, Administrator or
    Member and whose new status is Left or Kicked, rule 3 decides
    [Ban userId]; the handler, however, fails on the lookup of
    [ChatMemberStatus.KICKED] (line 85), writes the handler-error record and
    issues no ban command. *)
Theorem unsubscribe_not_banned (u : Update) (ev : MembershipEvent)
        (context : CallbackContext B) (b : B) :
  decode u = Some ev ->
  chatId ev = CHANNEL_ID ->
  userIsBot ev = false ->
  In (oldStatus ev) [OWNER; ADMINISTRATOR; MEMBER] ->
  In (newStatus ev) [LEFT; KICKED] ->
  classify ev CHANNEL_ID = Ban (userId ev) /\
  handler u context b =
    mkRun (Returned tt) b
          [Log (mkLog ERROR (MsgHandlerError (AttributeError "KICKED")) true)] /\
  ban_commands (effects (handler u context b)) = [].
Proof.
  intros D Hc Hb Ho Hn.
  split; [exact (classify_ban ev Hc Hb Ho Hn) |].
  rewrite (handler_subscribed_old u ev context b D Hc Hb Ho).
  split; reflexivity.
Qed.

(** C2.  For every event whose chat is not the target, whatever its statuses
    and bot flag, the decision is [Ignore]: the handler returns having issued
    no ban command and written no log record. *)
Theorem foreign_chat_ignored (u : Update) (ev : MembershipEvent)
        (context : CallbackContext B) (b : B) :
  decode u = Some ev ->
  chatId ev <> CHANNEL_ID ->
  classify ev CHANNEL_ID = Ignore /\
  handler u context b = mkRun (Returned tt) b [].
Proof.
  intros D Hc.
  split; [exact (classify_foreign ev Hc) |].
  rewrite (handler_on_event u ev context b D).
  apply Z.eqb_neq in Hc. now rewrite Hc.
Qed.

(** C3.  For every event whose user is a bot, the decision is [Ignore], also
    when the old status is subscribed and the new one unsubscribed: no ban
    command and no log record. *)
Theorem bot_user_ignored (u : Update) (ev : MembershipEvent)
        (context : CallbackContext B) (b : B) :
  decode u = Some ev ->
  userIsBot ev = true ->
  classify ev CHANNEL_ID = Ignore /\
  handler u context b = mkRun (Returned tt) b [].
Proof.
  intros D Hb.
  split; [exact (classify_bot ev Hb) |].
  rewrite (handler_on_event u ev context b D), Hb.
  now destruct (negb (chatId ev =? CHANNEL_ID)).
Qed.

(** C8 (the code departs from it).  On an event of the target channel, from a
    user that is not a bot, whose status changed from Owner, Administrator or
    Member to one that is neither Left nor Kicked, rule 4 decides
    [LogOnly oldStatus newStatus]; the handler, however, fails on line 85 and
    writes the handler-error record instead of the status-change record. *)
Theorem subscribed_change_not_logged (u : Update) (ev : MembershipEvent)
        (context : CallbackContext B) (b : B) :
  decode u = Some ev ->
  chatId ev = CHANNEL_ID ->
  userIsBot ev = false ->
  oldStatus ev <> newStatus ev ->
  In (oldStatus ev) [OWNER; ADMINISTRATOR; MEMBER] ->
  ~ In (newStatus ev) [LEFT; KICKED] ->
  classify ev CHANNEL_ID = LogOnly (oldStatus ev) (newStatus ev) /\
  log_records (effects (handler u context b)) =
    [mkLog ERROR (MsgHandlerError (AttributeError "KICKED")) true].
Proof.
  intros D Hc Hb Hd Ho Hn.
  split; [exact (classify_log_only ev Hc Hb Hd (or_intror Hn)) |].
  now rewrite (handler_subscribed_old u ev context b D Hc Hb Ho).
Qed.

(** C9 (the code departs from it).  On an event of the target channel, from a
    user that is not a bot, whose status is Owner, Administrator or Member and
    did not change, rule 5 decides [Ignore]; the handler, however, fails on
    line 85 and writes the handler-error record. *)
Theorem subscribed_unchanged_not_silent (u : Update) (ev : MembershipEvent)
        (context : CallbackContext B) (b : B) :
  decode u = Some ev ->
  chatId ev = CHANNEL_ID ->
  userIsBot ev = false ->
  oldStatus ev = newStatus ev ->
  In (oldStatus ev) [OWNER; ADMINISTRATOR; MEMBER] ->
  classify ev CHANNEL_ID = Ignore /\
  effects (handler u context b) =
    [Log (mkLog ERROR (MsgHandlerError (AttributeError "KICKED")) true)].
Proof.
  intros D Hc Hb He Ho.
  split; [exact (classify_unchanged ev Hc Hb He) |].
  now rewrite (handler_subscribed_old u ev context b D Hc Hb Ho).
Qed.

(** ** Error containment *)

(** C4 (the code departs from it).  On an event that calls for a ban, with a
    backend that would refuse the ban, the handler never reaches the call of
    line 91: no ban command is in its trace, the backend is as it was, and no
    record of its log is a failed-ban record. *)
Theorem ban_call_never_reached (u : Update) (ev : MembershipEvent)
        (context : CallbackContext B) (b b' : B) (e : Exception) :
  decode u = Some ev ->
  chatId ev = CHANNEL_ID ->
  userIsBot ev = false ->
  In (oldStatus ev) [OWNER; ADMINISTRATOR; MEMBER] ->
  In (newStatus ev) [LEFT; KICKED] ->
  ban_chat_member_api (bot context) CHANNEL_ID (userId ev) b = (Some e, b') ->
  ban_commands (effects (handler u context b)) = [] /\
  backend_after (handler u context b) = b /\
  existsb is_ban_failed (log_records (effects (handler u context b))) = false.
Proof.
  intros D Hc Hb Ho Hn _.
  rewrite (handler_subscribed_old u ev context b D Hc Hb Ho).
  repeat split.
Qed.

(** C7.  An exception raised in the [try] block of the handler, outside the
    ban call, is caught by the handler itself: it returns normally, writes one
    error record with the exception and its traceback, issues no ban command
    and leaves the backend as it was, and the loop handles the notifications
    that follow as it would have without this one. *)
Theorem handler_fault_contained (u : Update) (context : CallbackContext B) (b : B)
        (e : Exception) (rest : list Update) :
  outcome (body u context b) = Raised e ->
  handler u context b =
    mkRun (Returned tt) b [Log (mkLog ERROR (MsgHandlerError e) true)] /\
  loop (u :: rest) context b =
    mkRun (Returned tt)
          (backend_after (loop rest context b))
          (Log (mkLog ERROR (MsgHandlerError e) true)
             :: effects (loop rest context b)).
Proof.
  intro H.
  destruct (body_raise_silent u context b e H) as [He Hb].
  assert (K : handler u context b =
              mkRun (Returned tt) b [Log (mkLog ERROR (MsgHandlerError e) true)]).
  { unfold track_channel_member, try_except. rewrite H, He, Hb. reflexivity. }
  split; [exact K |].
  rewrite dispatch_step, dispatch_returns, K. reflexivity.
Qed.

(** C5, amended.  A notification that lacks what a [MembershipEvent] needs is
    never fatal: the handler returns normally, issues no ban command, leaves
    the backend as it was, and the loop goes on with the next notification.
    It is logged, with one error record carrying the [AttributeError] and its
    traceback, when the handler reads through the missing object: the chat of
    the record, or, in a record of the target channel, the old member, the new
    member or its user.  It is dropped without any log record when the
    notification has neither record, or when its record is of another chat. *)
Theorem malformed_dropped (u : Update) (context : CallbackContext B) (b : B)
        (rest : list Update) :
  decode u = None ->
  outcome (handler u context b) = Returned tt /\
  backend_after (handler u context b) = b /\
  ban_commands (effects (handler u context b)) = [] /\
  (my_chat_member u = None -> chat_member u = None ->
   effects (handler u context b) = []) /\
  (forall r, py_or (my_chat_member u) (chat_member u) = Some r -> chat r = None ->
   effects (handler u context b) =
   [Log (mkLog ERROR (MsgHandlerError (AttributeError "id")) true)]) /\
  (forall r c, py_or (my_chat_member u) (chat_member u) = Some r ->
   chat r = Some c -> chat_id c <> CHANNEL_ID ->
   effects (handler u context b) = []) /\
  (forall r c, py_or (my_chat_member u) (chat_member u) = Some r ->
   chat r = Some c -> chat_id c = CHANNEL_ID ->
   exists name,
     effects (handler u context b) =
     [Log (mkLog ERROR (MsgHandlerError (AttributeError name)) true)]) /\
  loop (u :: rest) context b =
    mkRun (Returned tt)
          (backend_after (loop rest context b))
          (effects (handler u context b) ++ effects (loop rest context b)).
Proof.
  intro D.
  destruct (handler_frame u context b) as [Hban Hback].
  split; [apply handler_returns |].
  split; [exact Hback |].
  split; [exact Hban |].
  split.
  { intros H1 H2.
    rewrite (handler_of_returned u context b []); [reflexivity |].
    apply body_no_record. now rewrite H1, H2. }
  split.
  { intros r Hr Hc.
    now rewrite (handler_of_raised u context b _ (body_no_chat u r context b Hr Hc)). }
  split.
  { intros r c Hr Hc Hne.
    now rewrite (handler_of_returned u context b []
                   (body_foreign u r c context b Hr Hc Hne)). }
  split.
  { intros r c Hr Hc He.
    destruct (body_target_incomplete u r c context b Hr Hc He D) as [name E].
    exists name. now rewrite (handler_of_raised u context b _ E). }
  rewrite dispatch_step, dispatch_returns, Hback. reflexivity.
Qed.

(** C10.  When a notification carries both records, the handler works on the
    bot's own membership record and on it alone: its run and the event
    decoded do not depend on the other record, and what it does is what the
    own record calls for, shown here on the two branches that leave a trace:
    a status change from a status outside line 84's list is logged with the
    own record's user and statuses, and a status of that list raises the
    fault of line 85. *)
Theorem own_record_takes_precedence (r r' : ChatMemberUpdated)
        (context : CallbackContext B) (b : B) :
  handler (mkUpdate (Some r) (Some r')) context b =
    handler (mkUpdate (Some r) None) context b /\
  decode (mkUpdate (Some r) (Some r')) = event_of OwnMembership r /\
  (forall ev,
     event_of OwnMembership r = Some ev ->
     chatId ev = CHANNEL_ID -> userIsBot ev = false ->
     ~ In (oldStatus ev) [OWNER; ADMINISTRATOR; MEMBER] ->
     oldStatus ev <> newStatus ev ->
     handler (mkUpdate (Some r) (Some r')) context b =
     mkRun (Returned tt) b
           [Log (mkLog INFO (MsgStatusChange (userDisplayName ev) (userId ev)
                                             (oldStatus ev) (newStatus ev)) false)]) /\
  (forall ev,
     event_of OwnMembership r = Some ev ->
     chatId ev = CHANNEL_ID -> userIsBot ev = false ->
     In (oldStatus ev) [OWNER; ADMINISTRATOR; MEMBER] ->
     handler (mkUpdate (Some r) (Some r')) context b =
     mkRun (Returned tt) b
           [Log (mkLog ERROR (MsgHandlerError (AttributeError "KICKED")) true)]).
Proof.
  split; [reflexivity |].
  split; [reflexivity |].
  split.
  - intros ev D Hc Hb Ho Hd.
    rewrite (handler_other_old (mkUpdate (Some r) (Some r')) ev context b D Hc Hb Ho).
    apply status_eqb_neq in Hd. now rewrite Hd.
  - intros ev D Hc Hb Ho.
    exact (handler_subscribed_old (mkUpdate (Some r) (Some r')) ev context b D Hc Hb Ho).
Qed.

End HandlerProperties.

(** ** Startup *)

Lemma truthy_nonempty (s : string) : s <> EmptyString -> truthy (Some s) = true.
Proof. destruct s; [intro H; now elim H | reflexivity]. Qed.

(** C6, amended.  If [BOT_TOKEN] or [CHANNEL_ID] is absent or empty, or
    [CHANNEL_ID] is not an integer for [int], the module raises [ValueError]
    and the program ends there, with nothing logged and no notification
    handled; if [BOT_TOKEN] is present and not empty and [CHANNEL_ID] is an
    integer for [int], startup succeeds with the parsed identifier and the
    program is [main].  ([int] refuses the empty string.) *)
Theorem startup_outcome (py_int : string -> option Z)
        (getenv : string -> option string) :
  py_int EmptyString = None ->
  (getenv "BOT_TOKEN" = None \/ getenv "BOT_TOKEN" = Some EmptyString
   \/ getenv "CHANNEL_ID" = None \/ getenv "CHANNEL_ID" = Some EmptyString
   \/ (exists c, getenv "CHANNEL_ID" = Some c /\ py_int c = None) ->
   exists msg,
     load_config py_int getenv = Raised (ValueError msg) /\
     forall (B : Type) (updates : list Update) (context : CallbackContext B) (b : B),
       program py_int getenv updates context b = mkRun (Raised (ValueError msg)) b [])
  /\
  (forall (t c : string) (n : Z),
     getenv "BOT_TOKEN" = Some t -> t <> EmptyString ->
     getenv "CHANNEL_ID" = Some c -> py_int c = Some n ->
     load_config py_int getenv = Returned (mkConfig t n) /\
     forall (B : Type) (updates : list Update) (context : CallbackContext B) (b : B),
       program py_int getenv updates context b = main n updates context b).
Proof.
  intro Hint. split.
  - intro H.
    assert (K : exists msg, load_config py_int getenv = Raised (ValueError msg)).
    { unfold load_config.
      destruct (truthy (getenv "BOT_TOKEN")) eqn:Et;
        destruct (truthy (getenv "CHANNEL_ID")) eqn:Ec; cbn [negb orb];
        try (eexists; reflexivity).
      destruct H as [H | [H | [H | [H | [c [Hc Hn]]]]]];
        try (rewrite H in Et; discriminate Et);
        try (rewrite H in Ec; discriminate Ec).
      rewrite Hc.
      destruct (getenv "BOT_TOKEN") as [t |]; [| discriminate Et].
      rewrite Hn. eexists; reflexivity. }
    destruct K as [msg K]. exists msg. split; [exact K |].
    intros B updates context b. unfold program. rewrite K. reflexivity.
  - intros t c n Ht Hne Hc Hn.
    assert (K : load_config py_int getenv = Returned (mkConfig t n)).
    { unfold load_config. rewrite Ht, Hc, Hn.
      rewrite (truthy_nonempty t Hne).
      assert (Hce : c <> EmptyString) by (intro E; rewrite E, Hint in Hn; discriminate Hn).
      rewrite (truthy_nonempty c Hce). reflexivity. }
    split; [exact K |].
    intros B updates context b. unfold program. rewrite K. reflexivity.
Qed.

(** ** Concrete runs *)

(** Member to Left in the target channel: rule 3 says ban, the handler logs
    the fault and bans nobody. *)
Lemma unsubscribe_not_banned_witness :
  classify alice_left_event channel = Ban 777 /\
  track_channel_member channel alice_left (mkContext accepting_bot) 0%nat =
    mkRun (Returned tt) 0%nat
          [Log (mkLog ERROR (MsgHandlerError (AttributeError "KICKED")) true)] /\
  ban_commands
    (effects (track_channel_member channel alice_left (mkContext accepting_bot) 0%nat))
  = [].
Proof.
  apply (unsubscribe_not_banned channel alice_left alice_left_event
                                (mkContext accepting_bot) 0%nat).
  - reflexivity.
  - reflexivity.
  - reflexivity.
  - simpl; tauto.
  - simpl; tauto.
Defined.

(** Member to Left in another chat: nothing. *)
Lemma foreign_chat_ignored_witness :
  classify (mkEvent 42 777 "Alice Doe" false MEMBER LEFT OtherMembership) channel
  = Ignore /\
  track_channel_member channel (other_member (transition 42 alice MEMBER LEFT))
                       (mkContext accepting_bot) 0%nat
  = mkRun (Returned tt) 0%nat [].
Proof.
  apply (foreign_chat_ignored channel (other_member (transition 42 alice MEMBER LEFT))
           (mkEvent 42 777 "Alice Doe" false MEMBER LEFT OtherMembership)
           (mkContext accepting_bot) 0%nat).
  - reflexivity.
  - unfold channel; cbn; lia.
Defined.

(** A bot going from Member to Kicked in the target channel: nothing. *)
Lemma bot_user_ignored_witness :
  classify (mkEvent channel 555 "Helper" true MEMBER KICKED OtherMembership) channel
  = Ignore /\
  track_channel_member channel (other_member (transition channel helper_bot MEMBER KICKED))
                       (mkContext accepting_bot) 0%nat
  = mkRun (Returned tt) 0%nat [].
Proof.
  apply (bot_user_ignored channel
           (other_member (transition channel helper_bot MEMBER KICKED))
           (mkEvent channel 555 "Helper" true MEMBER KICKED OtherMembership)
           (mkContext accepting_bot) 0%nat).
  - reflexivity.
  - reflexivity.
Defined.

(** Member to Restricted: rule 4 says log only, the handler logs the fault. *)
Lemma subscribed_change_not_logged_witness :
  classify (mkEvent channel 777 "Alice Doe" false MEMBER RESTRICTED OtherMembership)
           channel
  = LogOnly MEMBER RESTRICTED /\
  log_records
    (effects (track_channel_member channel alice_cut (mkContext accepting_bot) 0%nat))
  = [mkLog ERROR (MsgHandlerError (AttributeError "KICKED")) true].
Proof.
  apply (subscribed_change_not_logged channel alice_cut
           (mkEvent channel 777 "Alice Doe" false MEMBER RESTRICTED OtherMembership)
           (mkContext accepting_bot) 0%nat).
  - reflexivity.
  - reflexivity.
  - reflexivity.
  - cbn; discriminate.
  - simpl; tauto.
  - cbn. intros [H | [H | H]]; try discriminate H. exact H.
Defined.

(** Member to Member: rule 5 says ignore, the handler logs the fault. *)
Lemma subscribed_unchanged_not_silent_witness :
  classify (mkEvent channel 777 "Alice Doe" false MEMBER MEMBER OwnMembership) channel
  = Ignore /\
  effects (track_channel_member channel
             (own_member (transition channel alice MEMBER MEMBER))
             (mkContext accepting_bot) 0%nat)
  = [Log (mkLog ERROR (MsgHandlerError (AttributeError "KICKED")) true)].
Proof.
  apply (subscribed_unchanged_not_silent channel
           (own_member (transition channel alice MEMBER MEMBER))
           (mkEvent channel 777 "Alice Doe" false MEMBER MEMBER OwnMembership)
           (mkContext accepting_bot) 0%nat).
  - reflexivity.
  - reflexivity.
  - reflexivity.
  - reflexivity.
  - simpl; tauto.
Defined.

(** Alice leaves while the backend refuses every ban: the backend is never
    asked. *)
Lemma ban_call_never_reached_witness :
  ban_commands
    (effects (track_channel_member channel alice_left (mkContext rejecting_bot) 0%nat))
  = [] /\
  backend_after (track_channel_member channel alice_left (mkContext rejecting_bot) 0%nat)
  = 0%nat /\
  existsb is_ban_failed
    (log_records
       (effects (track_channel_member channel alice_left (mkContext rejecting_bot) 0%nat)))
  = false.
Proof.
  apply (ban_call_never_reached channel alice_left alice_left_event
           (mkContext rejecting_bot) 0%nat 1%nat
           (TelegramError "Forbidden: not enough rights")).
  - reflexivity.
  - reflexivity.
  - reflexivity.
  - simpl; tauto.
  - simpl; tauto.
  - reflexivity.
Defined.

(** The fault of line 85 on Alice's departure: caught and logged, and the
    notification after it is handled. *)
Lemma handler_fault_contained_witness :
  track_channel_member channel alice_left (mkContext accepting_bot) 0%nat
  = mkRun (Returned tt) 0%nat
      [Log (mkLog ERROR (MsgHandlerError (AttributeError "KICKED")) true)] /\
  dispatch channel [alice_left; other_member alice_restricted_left]
           (mkContext accepting_bot) 0%nat
  = mkRun (Returned tt)
      (backend_after (dispatch channel [other_member alice_restricted_left]
                               (mkContext accepting_bot) 0%nat))
      (Log (mkLog ERROR (MsgHandlerError (AttributeError "KICKED")) true)
         :: effects (dispatch channel [other_member alice_restricted_left]
                              (mkContext accepting_bot) 0%nat)).
Proof.
  apply (handler_fault_contained channel alice_left (mkContext accepting_bot)
           0%nat (AttributeError "KICKED") [other_member alice_restricted_left]).
  reflexivity.
Defined.

(** C5 as stated fails: the notification with neither record does not decode,
    and the handler drops it without writing any log record. *)
Lemma empty_update_not_logged :
  decode empty_update = None /\
  log_records
    (effects (track_channel_member channel empty_update (mkContext accepting_bot) 0%nat))
  = [].
Proof. split; reflexivity. Qed.

(** A record without its chat is logged; a record of another chat that lacks
    its members is not; either way the next notification is handled. *)
Lemma malformed_dropped_witness :
  effects (track_channel_member channel chatless_update (mkContext accepting_bot) 0%nat)
  = [Log (mkLog ERROR (MsgHandlerError (AttributeError "id")) true)] /\
  effects (track_channel_member channel foreign_stub (mkContext accepting_bot) 0%nat)
  = [] /\
  dispatch channel [chatless_update; other_member alice_restricted_left]
           (mkContext accepting_bot) 0%nat
  = mkRun (Returned tt)
      (backend_after (dispatch channel [other_member alice_restricted_left]
                               (mkContext accepting_bot) 0%nat))
      (effects (track_channel_member channel chatless_update
                  (mkContext accepting_bot) 0%nat)
         ++ effects (dispatch channel [other_member alice_restricted_left]
                              (mkContext accepting_bot) 0%nat)).
Proof.
  destruct (malformed_dropped channel chatless_update (mkContext accepting_bot) 0%nat
              [other_member alice_restricted_left])
    as (_ & _ & _ & _ & H5 & _ & _ & H8); [reflexivity |].
  destruct (malformed_dropped channel foreign_stub (mkContext accepting_bot) 0%nat [])
    as (_ & _ & _ & _ & _ & H6 & _ & _); [reflexivity |].
  split; [apply (H5 _ eq_refl eq_refl) |].
  split; [apply (H6 _ (mkChat 42) eq_refl eq_refl); unfold channel; cbn; lia |].
  exact H8.
Defined.

(** Both records present: Alice's, the own record, is the one logged; Bob's is
    not looked at. *)
Lemma own_record_takes_precedence_witness :
  track_channel_member channel both_records (mkContext accepting_bot) 0%nat =
  mkRun (Returned tt) 0%nat
        [Log (mkLog INFO (MsgStatusChange "Alice Doe" 777 RESTRICTED LEFT) false)].
Proof.
  destruct (own_record_takes_precedence channel alice_restricted_left bob_admitted
              (mkContext accepting_bot) 0%nat)
    as (_ & _ & H & _).
  apply (H (mkEvent channel 777 "Alice Doe" false RESTRICTED LEFT OwnMembership)).
  - reflexivity.
  - reflexivity.
  - reflexivity.
  - cbn. intros [K | [K | [K | K]]]; try discriminate K. exact K.
  - cbn; discriminate.
Defined.

(** C6 as stated fails: with [BOT_TOKEN] set to the empty string the credential
    variable is present and [CHANNEL_ID] is an integer, yet the module raises. *)
Lemma empty_token_refused :
  env_of (Some EmptyString) (Some "-1001234567890") "BOT_TOKEN" <> None /\
  int_decimal "-1001234567890" = Some (-1001234567890) /\
  load_config int_decimal (env_of (Some EmptyString) (Some "-1001234567890"))
  = Raised (ValueError "Необходимо указать BOT_TOKEN и CHANNEL_ID в файле .env").
Proof.
  split; [cbn; discriminate |].
  split; reflexivity.
Qed.

(** A complete environment starts; one without the token does not. *)
Lemma startup_outcome_witness :
  load_config int_decimal (env_of (Some "123456:ABC") (Some "-1001234567890"))
  = Returned (mkConfig "123456:ABC" channel) /\
  exists msg,
    load_config int_decimal (env_of None (Some "-1001234567890"))
    = Raised (ValueError msg).
Proof.
  split.
  - apply (proj2 (startup_outcome int_decimal
                    (env_of (Some "123456:ABC") (Some "-1001234567890"))
                    eq_refl)
             "123456:ABC" "-1001234567890" channel).
    + reflexivity.
    + discriminate.
    + reflexivity.
    + reflexivity.
  - destruct (proj1 (startup_outcome int_decimal
                       (env_of None (Some "-1001234567890")) eq_refl))
      as [msg [H _]].
    + left; reflexivity.
    + exists msg; exact H.
Defined.

(** ** Further properties of the handler *)

Lemma log_records_app (t t' : list Effect) :
  log_records (t ++ t') = (log_records t ++ log_records t')%list.
Proof.
  induction t as [| [c v | r] t IH]; cbn; [reflexivity | exact IH |].
  now rewrite IH.
Qed.

Lemma ban_commands_app (t t' : list Effect) :
  ban_commands (t ++ t') = (ban_commands t ++ ban_commands t')%list.
Proof.
  induction t as [| [c v | r] t IH]; cbn; [reflexivity | | exact IH].
  now rewrite IH.
Qed.

Section HandlerBounds.
Context {B : Type}.
Variable CHANNEL_ID : Z.

Local Abbreviation handler := (track_channel_member (B:=B) CHANNEL_ID).
Local Abbreviation loop := (dispatch (B:=B) CHANNEL_ID).

(** X1.  On every notification, and whatever the backend answers, the handler
    returns normally, having issued at most one ban command and written at
    most one log record. *)
Theorem handler_effects_bounded (u : Update) (context : CallbackContext B) (b : B) :
  outcome (handler u context b) = Returned tt /\
  (List.length (ban_commands (effects (handler u context b))) <= 1)%nat /\
  (List.length (log_records (effects (handler u context b))) <= 1)%nat.
Proof.
  split; [apply handler_returns |].
  destruct (decode u) as [ev |] eqn:D.
  - rewrite (handler_on_event CHANNEL_ID u ev context b D).
    destruct (negb (chatId ev =? CHANNEL_ID)); [cbn; lia |].
    destruct (userIsBot ev); [cbn; lia |].
    destruct (status_in (oldStatus ev) [MEMBER; ADMINISTRATOR; OWNER]); [cbn; lia |].
    destruct (negb (status_eqb (oldStatus ev) (newStatus ev))); cbn; lia.
  - destruct (handler_not_decoded CHANNEL_ID u context b D) as [-> | [e ->]];
      cbn; lia.
Qed.

(** X2.  The handler bans nobody: on every notification and with every
    backend its trace holds no ban command, because the one path to the ban
    call goes through the lookup of line 85, which fails. *)
Theorem no_ban_command_ever (u : Update) (context : CallbackContext B) (b : B) :
  ban_commands (effects (handler u context b)) = [].
Proof.
  destruct (decode u) as [ev |] eqn:D.
  - rewrite (handler_on_event CHANNEL_ID u ev context b D).
    destruct (negb (chatId ev =? CHANNEL_ID)); [reflexivity |].
    destruct (userIsBot ev); [reflexivity |].
    destruct (status_in (oldStatus ev) [MEMBER; ADMINISTRATOR; OWNER]);
      [reflexivity |].
    destruct (negb (status_eqb (oldStatus ev) (newStatus ev))); reflexivity.
  - destruct (handler_not_decoded CHANNEL_ID u context b D) as [-> | [e ->]];
      reflexivity.
Qed.

(** X3.  The handler touches the backend through the ban call only: when its
    trace holds no ban command, the backend is as it was. *)
Theorem backend_untouched_without_ban (u : Update) (context : CallbackContext B)
        (b : B) :
  ban_commands (effects (handler u context b)) = [] ->
  backend_after (handler u context b) = b.
Proof.
  intros _. exact (proj2 (handler_frame CHANNEL_ID u context b)).
Qed.

(** X4.  A status change of a user that is not a bot, in the target channel,
    from a status that is not Owner, Administrator or Member (a join, a
    restriction lifted, Kicked to Left) is logged and nothing else: one INFO
    record with the user's name and id and the two statuses, no ban command,
    the backend untouched. *)
Theorem non_subscriber_change_logged_only (u : Update) (ev : MembershipEvent)
        (context : CallbackContext B) (b : B) :
  decode u = Some ev ->
  chatId ev = CHANNEL_ID ->
  userIsBot ev = false ->
  oldStatus ev <> newStatus ev ->
  ~ In (oldStatus ev) [OWNER; ADMINISTRATOR; MEMBER] ->
  handler u context b =
  mkRun (Returned tt) b
        [Log (mkLog INFO (MsgStatusChange (userDisplayName ev) (userId ev)
                                          (oldStatus ev) (newStatus ev)) false)].
Proof.
  intros D Hc Hb Hd Ho.
  rewrite (handler_other_old CHANNEL_ID u ev context b D Hc Hb Ho).
  apply status_eqb_neq in Hd. now rewrite Hd.
Qed.

(** X12.  An event of the target channel, from a user that is not a bot, whose
    status is not Owner, Administrator or Member and did not change, leaves no
    trace at all. *)
Theorem non_subscriber_unchanged_ignored (u : Update) (ev : MembershipEvent)
        (context : CallbackContext B) (b : B) :
  decode u = Some ev ->
  chatId ev = CHANNEL_ID ->
  userIsBot ev = false ->
  oldStatus ev = newStatus ev ->
  ~ In (oldStatus ev) [OWNER; ADMINISTRATOR; MEMBER] ->
  handler u context b = mkRun (Returned tt) b [].
Proof.
  intros D Hc Hb He Ho.
  rewrite (handler_other_old CHANNEL_ID u ev context b D Hc Hb Ho).
  now rewrite He, status_eqb_refl.
Qed.

End HandlerBounds.

(** ** Further properties of the loop *)

Section LoopProperties.
Context {B : Type}.
Variable CHANNEL_ID : Z.

Local Abbreviation handler := (track_channel_member (B:=B) CHANNEL_ID).
Local Abbreviation loop := (dispatch (B:=B) CHANNEL_ID).

(** Over a whole stream no ban command is issued. *)
Lemma dispatch_no_ban (updates : list Update) (context : CallbackContext B) (b : B) :
  ban_commands (effects (loop updates context b)) = [].
Proof.
  revert b; induction updates as [| u rest IH]; intro b.
  - reflexivity.
  - rewrite dispatch_step. cbn [effects].
    rewrite ban_commands_app, IH, (proj1 (handler_frame CHANNEL_ID u context b)).
    reflexivity.
Qed.

(** X5.  Which ban commands the loop issues over a stream of notifications
    does not depend on the backend: two backends, of any kind, in any state and
    answering as they like, see the same commands in the same order. *)
Theorem ban_commands_backend_independent {B' : Type} (updates : list Update)
        (context : CallbackContext B) (b : B)
        (context' : CallbackContext B') (b' : B') :
  ban_commands (effects (loop updates context b)) =
  ban_commands (effects (dispatch CHANNEL_ID updates context' b')).
Proof.
  rewrite dispatch_no_ban.
  revert b'; induction updates as [| u rest IH]; intro b'.
  - reflexivity.
  - rewrite dispatch_step. cbn [effects].
    rewrite ban_commands_app, <- IH,
      (proj1 (handler_frame CHANNEL_ID u context' b')).
    reflexivity.
Qed.

(** X6.  The handler keeps no memory of what it has seen: a notification of
    an unsubscribe, delivered [k] times, is handled [k] times in the same
    way, each time with the handler-error record of line 115 and no ban. *)
Theorem repeated_notification_logged_each_time (u : Update) (ev : MembershipEvent)
        (k : nat) (context : CallbackContext B) (b : B) :
  decode u = Some ev ->
  chatId ev = CHANNEL_ID ->
  userIsBot ev = false ->
  In (oldStatus ev) [OWNER; ADMINISTRATOR; MEMBER] ->
  effects (loop (repeat u k) context b) =
  repeat (Log (mkLog ERROR (MsgHandlerError (AttributeError "KICKED")) true)) k.
Proof.
  intros D Hc Hb Ho. induction k as [| k IH].
  - reflexivity.
  - cbn [repeat]. rewrite dispatch_step.
    rewrite (handler_subscribed_old CHANNEL_ID u ev context b D Hc Hb Ho).
    cbn [effects backend_after app]. now rewrite IH.
Qed.

(** Handling a stream in two batches is handling it at once: the second
    batch starts from the backend the first one left, and the trace is the two
    traces one after the other. *)
Lemma dispatch_in_batches (us vs : list Update) (context : CallbackContext B)
        (b : B) :
  loop (us ++ vs) context b =
  mkRun (Returned tt)
        (backend_after (loop vs context (backend_after (loop us context b))))
        (effects (loop us context b)
           ++ effects (loop vs context (backend_after (loop us context b)))).
Proof.
  destruct (dispatch_app CHANNEL_ID us vs context b) as [He Hb].
  rewrite <- He, <- Hb, <- (dispatch_returns CHANNEL_ID (us ++ vs) context b).
  symmetry. apply run_eta.
Qed.

End LoopProperties.

(** ** Further properties of startup *)

Section StartupProperties.
Variable py_int : string -> option Z.
Variable getenv : string -> option string.

Lemma truthy_Some (v : option string) :
  truthy v = true -> exists s, v = Some s /\ s <> EmptyString.
Proof.
  destruct v as [[| a s] |]; cbn; intro H; try discriminate H.
  eexists; split; [reflexivity | discriminate].
Qed.

Lemma load_config_ok (t c : string) (n : Z) :
  getenv "BOT_TOKEN" = Some t -> t <> EmptyString ->
  getenv "CHANNEL_ID" = Some c -> c <> EmptyString ->
  py_int c = Some n ->
  load_config py_int getenv = Returned (mkConfig t n).
Proof.
  intros Ht Hne Hc Hce Hn. unfold load_config.
  rewrite Ht, Hc, Hn, (truthy_nonempty t Hne), (truthy_nonempty c Hce).
  reflexivity.
Qed.

(** X7.  A configuration that loaded is sound: the token is the value of
    [BOT_TOKEN] and is not empty, and the channel identifier is what [int]
    made of the non-empty value of [CHANNEL_ID]. *)
Theorem loaded_config_is_sound (cfg : Config) :
  load_config py_int getenv = Returned cfg ->
  getenv "BOT_TOKEN" = Some (BOT_TOKEN cfg) /\ BOT_TOKEN cfg <> EmptyString /\
  exists c, getenv "CHANNEL_ID" = Some c /\ c <> EmptyString /\
            py_int c = Some (CHANNEL_ID cfg).
Proof.
  unfold load_config.
  destruct (truthy (getenv "BOT_TOKEN")) eqn:Et; cbn [negb orb]; [| discriminate].
  destruct (truthy (getenv "CHANNEL_ID")) eqn:Ec; cbn [negb]; [| discriminate].
  destruct (truthy_Some _ Et) as (t & -> & Hne).
  destruct (truthy_Some _ Ec) as (c & -> & Hce).
  destruct (py_int c) as [n |] eqn:En; [| discriminate].
  intro H; injection H as <-. cbn.
  split; [reflexivity |]. split; [exact Hne |].
  exists c. repeat split; assumption.
Qed.

(** X8.  The two refusals are told apart, and the test for a missing value
    comes first: when [BOT_TOKEN] or [CHANNEL_ID] is absent or empty the error
    asks for both variables, whatever [CHANNEL_ID] holds; when both are there
    and [int] refuses [CHANNEL_ID], the error says it must be a number. *)
Theorem startup_error_messages :
  (truthy (getenv "BOT_TOKEN") = false \/ truthy (getenv "CHANNEL_ID") = false ->
   load_config py_int getenv =
   Raised (ValueError "Необходимо указать BOT_TOKEN и CHANNEL_ID в файле .env"))
  /\
  (forall t c, getenv "BOT_TOKEN" = Some t -> t <> EmptyString ->
               getenv "CHANNEL_ID" = Some c -> c <> EmptyString ->
               py_int c = None ->
   load_config py_int getenv = Raised (ValueError "CHANNEL_ID должен быть числом")).
Proof.
  split.
  - intro H. unfold load_config.
    destruct H as [-> | ->]; [reflexivity |].
    now destruct (truthy (getenv "BOT_TOKEN")).
  - intros t c Ht Hne Hc Hce Hn. unfold load_config.
    rewrite Ht, Hc, Hn, (truthy_nonempty t Hne), (truthy_nonempty c Hce).
    reflexivity.
Qed.

Lemma bind_emit {B C} (e : Effect) (k : unit -> M B C) (b : B) :
  bind (emit e) k b =
  mkRun (outcome (k tt b)) (backend_after (k tt b)) (e :: effects (k tt b)).
Proof. reflexivity. Qed.

(** X9.  With a sound environment the program runs to the end of the stream:
    it writes the three start-up records, the second one naming the parsed
    channel identifier, then handles every notification against that
    identifier, and returns. *)
Theorem program_runs_with_parsed_channel {B : Type} (t c : string) (n : Z)
        (updates : list Update) (context : CallbackContext B) (b : B) :
  getenv "BOT_TOKEN" = Some t -> t <> EmptyString ->
  getenv "CHANNEL_ID" = Some c -> c <> EmptyString ->
  py_int c = Some n ->
  program py_int getenv updates context b =
  mkRun (Returned tt)
        (backend_after (dispatch n updates context b))
        (Log (mkLog INFO MsgStarting false)
           :: Log (mkLog INFO (MsgMonitoring n) false)
           :: Log (mkLog INFO MsgStarted false)
           :: effects (dispatch n updates context b)).
Proof.
  intros Ht Hne Hc Hce Hn. unfold program.
  rewrite (load_config_ok t c n Ht Hne Hc Hce Hn). cbn [CHANNEL_ID].
  unfold main, logger_info. rewrite !bind_emit.
  cbn [outcome backend_after effects].
  now rewrite dispatch_returns.
Qed.

End StartupProperties.

(** ** The operator commands *)

Section CommandProperties.
Context {B : Type}.

(** X10.  On an update without a message, [stats] returns without replying,
    while [start], which does not test for the message, raises
    [AttributeError]; neither sends a reply nor touches the backend. *)
Theorem commands_without_message (CHANNEL_ID : Z) (clock : string)
        (update : Commands.Update B) (b : B) :
  Commands.message update = None ->
  Commands.stats CHANNEL_ID clock update b = Commands.mkRun (Returned tt) b [] /\
  Commands.start update b =
    Commands.mkRun (Raised (AttributeError "reply_text")) b [].
Proof.
  intro H. unfold Commands.stats, Commands.start. rewrite H. split; reflexivity.
Qed.

(** X11.  Neither command catches what [reply_text] raises: when the reply is
    refused, the handler has sent that one reply, with the configured channel
    identifier in the case of [stats], and the exception leaves it. *)
Theorem command_reply_error_escapes (CHANNEL_ID : Z) (clock : string)
        (update : Commands.Update B) (m : Commands.Message B) (b b1 b2 : B)
        (e1 e2 : Exception) :
  Commands.message update = Some m ->
  Commands.reply_text_api m (Commands.StatsReply CHANNEL_ID clock) b = (Some e1, b1) ->
  Commands.reply_text_api m Commands.StartReply b = (Some e2, b2) ->
  Commands.stats CHANNEL_ID clock update b =
    Commands.mkRun (Raised e1) b1 [Commands.StatsReply CHANNEL_ID clock] /\
  Commands.start update b = Commands.mkRun (Raised e2) b2 [Commands.StartReply].
Proof.
  intros Hm H1 H2.
  unfold Commands.stats, Commands.start, Commands.reply_text.
  rewrite Hm, H1, H2. split; reflexivity.
Qed.

End CommandProperties.

(** ** Concrete runs of the further properties *)

(** Restricted to Left: five calls were counted before, five after. *)
Lemma backend_untouched_without_ban_witness :
  backend_after
    (track_channel_member channel
       (other_member (transition channel alice RESTRICTED LEFT))
       (mkContext rejecting_bot) 5%nat)
  = 5%nat.
Proof.
  apply (backend_untouched_without_ban channel
           (other_member (transition channel alice RESTRICTED LEFT))
           (mkContext rejecting_bot) 5%nat).
  reflexivity.
Defined.

(** Restricted to Left: one record and no ban. *)
Lemma non_subscriber_change_logged_only_witness :
  track_channel_member channel (other_member alice_restricted_left)
                       (mkContext accepting_bot) 0%nat =
  mkRun (Returned tt) 0%nat
        [Log (mkLog INFO (MsgStatusChange "Alice Doe" 777 RESTRICTED LEFT) false)].
Proof.
  apply (non_subscriber_change_logged_only channel (other_member alice_restricted_left)
           (mkEvent channel 777 "Alice Doe" false RESTRICTED LEFT OtherMembership)
           (mkContext accepting_bot) 0%nat).
  - reflexivity.
  - reflexivity.
  - reflexivity.
  - cbn; discriminate.
  - cbn. intros [K | [K | [K | K]]]; try discriminate K. exact K.
Defined.

(** Left to Left: nothing. *)
Lemma non_subscriber_unchanged_ignored_witness :
  track_channel_member channel (other_member (transition channel alice LEFT LEFT))
                       (mkContext accepting_bot) 0%nat
  = mkRun (Returned tt) 0%nat [].
Proof.
  apply (non_subscriber_unchanged_ignored channel
           (other_member (transition channel alice LEFT LEFT))
           (mkEvent channel 777 "Alice Doe" false LEFT LEFT OtherMembership)
           (mkContext accepting_bot) 0%nat).
  - reflexivity.
  - reflexivity.
  - reflexivity.
  - reflexivity.
  - cbn. intros [K | [K | [K | K]]]; try discriminate K. exact K.
Defined.

(** Alice's departure delivered three times. *)
Lemma repeated_notification_logged_each_time_witness :
  effects (dispatch channel (repeat alice_left 3) (mkContext rejecting_bot) 0%nat)
  = repeat (Log (mkLog ERROR (MsgHandlerError (AttributeError "KICKED")) true)) 3.
Proof.
  apply (repeated_notification_logged_each_time channel alice_left alice_left_event
           3 (mkContext rejecting_bot) 0%nat).
  - reflexivity.
  - reflexivity.
  - reflexivity.
  - simpl; tauto.
Defined.

Lemma loaded_config_is_sound_witness :
  env_of (Some "123456:ABC") (Some "-1001234567890") "BOT_TOKEN" = Some "123456:ABC" /\
  "123456:ABC" <> EmptyString /\
  exists c, env_of (Some "123456:ABC") (Some "-1001234567890") "CHANNEL_ID" = Some c /\
            c <> EmptyString /\ int_decimal c = Some channel.
Proof.
  apply (loaded_config_is_sound int_decimal
           (env_of (Some "123456:ABC") (Some "-1001234567890"))
           (mkConfig "123456:ABC" channel)).
  reflexivity.
Defined.

(** No channel at all, and a channel that is not a number. *)
Lemma startup_error_messages_witness :
  load_config int_decimal (env_of (Some "123456:ABC") None) =
  Raised (ValueError "Необходимо указать BOT_TOKEN и CHANNEL_ID в файле .env") /\
  load_config int_decimal (env_of (Some "123456:ABC") (Some "@mychannel")) =
  Raised (ValueError "CHANNEL_ID должен быть числом").
Proof.
  split.
  - apply (proj1 (startup_error_messages int_decimal
                    (env_of (Some "123456:ABC") None))).
    right; reflexivity.
  - apply (proj2 (startup_error_messages int_decimal
                    (env_of (Some "123456:ABC") (Some "@mychannel")))
             "123456:ABC" "@mychannel").
    + reflexivity.
    + discriminate.
    + reflexivity.
    + discriminate.
    + reflexivity.
Defined.

Lemma program_runs_with_parsed_channel_witness :
  program int_decimal (env_of (Some "123456:ABC") (Some "-1001234567890"))
          [alice_left] (mkContext accepting_bot) 0%nat =
  mkRun (Returned tt)
        (backend_after (dispatch channel [alice_left] (mkContext accepting_bot) 0%nat))
        (Log (mkLog INFO MsgStarting false)
           :: Log (mkLog INFO (MsgMonitoring channel) false)
           :: Log (mkLog INFO MsgStarted false)
           :: effects (dispatch channel [alice_left] (mkContext accepting_bot) 0%nat)).
Proof.
  apply (program_runs_with_parsed_channel int_decimal
           (env_of (Some "123456:ABC") (Some "-1001234567890"))
           "123456:ABC" "-1001234567890" channel
           [alice_left] (mkContext accepting_bot) 0%nat).
  - reflexivity.
  - discriminate.
  - reflexivity.
  - discriminate.
  - reflexivity.
Defined.

Lemma commands_without_message_witness :
  Commands.stats channel "2024-05-01 12:00:00" (Commands.mkUpdate None) 0%nat =
    Commands.mkRun (Returned tt) 0%nat [] /\
  Commands.start (Commands.mkUpdate None) 0%nat =
    Commands.mkRun (Raised (AttributeError "reply_text")) 0%nat [].
Proof.
  apply (commands_without_message channel "2024-05-01 12:00:00"
           (Commands.mkUpdate None) 0%nat).
  reflexivity.
Defined.

Lemma command_reply_error_escapes_witness :
  Commands.stats channel "2024-05-01 12:00:00"
                 (Commands.mkUpdate (Some Commands.closed_chat)) 0%nat =
    Commands.mkRun (Raised (TelegramError "Forbidden: bot was blocked")) 1%nat
                   [Commands.StatsReply channel "2024-05-01 12:00:00"] /\
  Commands.start (Commands.mkUpdate (Some Commands.closed_chat)) 0%nat =
    Commands.mkRun (Raised (TelegramError "Forbidden: bot was blocked")) 1%nat
                   [Commands.StartReply].
Proof.
  apply (command_reply_error_escapes channel "2024-05-01 12:00:00"
           (Commands.mkUpdate (Some Commands.closed_chat)) Commands.closed_chat
           0%nat 1%nat 1%nat
           (TelegramError "Forbidden: bot was blocked")
           (TelegramError "Forbidden: bot was blocked")).
  - reflexivity.
  - reflexivity.
  - reflexivity.
Defined.

